(** * mpatterns: pattern validation of call arguments

    A shallow embedding of [mpatterns.py] and the properties of its
    validators and of its validating decorator.

    Layout:
    - Python values, exceptions, the result of an evaluation, and what is
      left to the interpreter at hand;
    - [re]: the part of Python's regular-expression library the module
      calls, worked out for the syntax its three patterns are written in;
    - [Validator], the [PatternValidator] class family, [ValidateDecorator];
    - the properties.

    A string is a sequence of characters with code points below 256. *)

From Stdlib Require Import String Ascii List Bool Arith ZArith Lia.
From Stdlib Require Import Permutation DecimalString.
Import ListNotations.
Local Open Scope string_scope.
Local Open Scope list_scope.

(** ** Python values and exceptions *)

(** The exception classes of the module, and any other class by its name. *)
Inductive ErrorKind : Type :=
| DefaultException
| NumericValidatorException
| AlphaValidatorException
| AlphaNumericValidatorException
| OtherException (name : string).

(** The values that flow through the validators: arguments of a guarded call
    and what the guarded function returns.  [VObject] is any other object,
    given by what its [__str__] does: return a text or raise.

    A raised exception is one the interpreter or [re] raises (its message is
    not modelled), or an instance of an exception class [k] built from
    [args]. *)
Inductive value : Type :=
| VNone
| VBool (b : bool)
| VInt (z : Z)
| VStr (s : string)
| VObject (__str__ : string + exception)
with exception : Type :=
| TypeError
| ValueError
| AttributeError
| re_error
| Instance (k : ErrorKind) (args : list value).

(** [**kwargs]: a dict from names to values, in insertion order. *)
Definition kwargs_t : Type := list (string * value).

(** [kwargs.values()] *)
Definition values (kwargs : kwargs_t) : list value := map snd kwargs.

(** ** Results *)

(** What evaluating an expression gives: a value or a raised exception. *)
Inductive result (A : Type) : Type :=
| Ok (a : A)
| Raise (e : exception).
Arguments Ok {A} a.
Arguments Raise {A} e.

Definition bind {A B : Type} (r : result A) (k : A -> result B) : result B :=
  match r with
  | Ok a => k a
  | Raise e => Raise e
  end.

Declare Scope py_scope.
Delimit Scope py_scope with py.
Notation "x <- c ;; k" := (bind c (fun x => k))
  (at level 61, c at next level, right associativity) : py_scope.
Local Open Scope py_scope.

(** A list comprehension [[f(e) for e in l]]: left to right, the first
    exception ends it. *)
Fixpoint comprehension {A B : Type} (f : A -> result B) (l : list A)
  : result (list B) :=
  match l with
  | [] => Ok []
  | e :: l' =>
      b <- f e ;;
      bs <- comprehension f l' ;;
      Ok (b :: bs)
  end.

(** Binding the keywords of a call to a signature [(param, *args, **kwargs)]
    whose first parameter is filled by position (the bound [self] or [cls]):
    a keyword with the name of that parameter is a [TypeError], every other
    keyword goes to [kwargs]. *)
Definition has_name (name : string) (kwargs : kwargs_t) : bool :=
  existsb (String.eqb name) (map fst kwargs).

Definition bind_keywords (param : string) (kwargs : kwargs_t) : result unit :=
  if has_name param kwargs then Raise TypeError else Ok tt.

(** ** The interpreter at hand *)

(** What the model leaves to the interpreter the module runs on:
    - the limit on the number of digits of an integer turned into text,
      [sys.get_int_max_str_digits()], 0 when there is none;
    - the regular-expression library on the patterns written outside the
      syntax worked out below: the exception [re.compile] raises on such a
      pattern, if any, and whether, compiled, it matches a string from its
      start. *)
Class Python : Type :=
  { int_max_str_digits : nat;
    sre_compile : string -> option exception;
    sre_match : string -> string -> bool }.

(** The builtin [str(element)].  The text of an integer with more digits
    than the limit, the sign not counted, is a [ValueError]; the limit is
    looked at for texts longer than 640 characters only. *)
Definition int_text (z : Z) : string := NilZero.string_of_int (Z.to_int z).

Definition str {py : Python} (element : value) : result string :=
  match element with
  | VNone => Ok "None"
  | VBool true => Ok "True"
  | VBool false => Ok "False"
  | VInt z =>
      let text := int_text z in
      let strlen := String.length text in
      let strlen_nosign := strlen - (if (z <? 0)%Z then 1 else 0) in
      if Nat.ltb 640 strlen && Nat.ltb 0 int_max_str_digits
         && Nat.ltb int_max_str_digits strlen_nosign
      then Raise ValueError
      else Ok text
  | VStr s => Ok s
  | VObject (inl s) => Ok s
  | VObject (inr e) => Raise e
  end.

(** ** The regular-expression library *)

Module re.

(** The library is worked out for patterns written with literal characters,
    backslash-escaped punctuation, [.], [^], [$], character sets [[...]]
    and the repeats [*], [+], [?] of a single character or set: the syntax
    of the module's three patterns.  A pattern with a group, an
    alternation, a counted, lazy or possessive repeat, or a letter or digit
    escape is [Beyond] this syntax and is left to the interpreter. *)

Inductive atom : Type :=
| Literal (c : ascii)
| AnyChar
| In (negate : bool) (ranges : list (ascii * ascii)).

Inductive repeat : Type := Once | ZeroOrMore | OneOrMore | ZeroOrOne.

Inductive op : Type :=
| At_Beginning
| At_End
| Repeat (q : repeat) (a : atom).

(** What parsing gives: the operations of the pattern, a syntax error, or
    nothing when the pattern is beyond the syntax worked out here. *)
Inductive parsed (A : Type) : Type :=
| Parsed (a : A)
| Malformed
| Beyond.
Arguments Parsed {A} a.
Arguments Malformed {A}.
Arguments Beyond {A}.

(** The tokens of a pattern: a character, or a backslash with the character
    it escapes; a backslash that ends the pattern escapes nothing. *)
Inductive token : Type :=
| Plain (c : ascii)
| Escaped (c : ascii)
| Dangling.

Definition backslash : ascii := ascii_of_nat 92.
Definition newline : ascii := ascii_of_nat 10.

Fixpoint tokenize (pattern : string) : list token :=
  match pattern with
  | EmptyString => []
  | String c rest =>
      if Ascii.eqb c backslash then
        match rest with
        | EmptyString => [Dangling]
        | String d rest' => Escaped d :: tokenize rest'
        end
      else Plain c :: tokenize rest
  end.

Definition between (lo hi c : ascii) : bool :=
  Ascii.leb lo c && Ascii.leb c hi.

Definition alnum (c : ascii) : bool :=
  between "0" "9" c || between "a" "z" c || between "A" "Z" c.

(** An escape outside and inside a set: escaped punctuation stands for
    itself; the letter and digit escapes are beyond. *)
Definition escape (c : ascii) : parsed ascii :=
  if alnum c then Beyond else Parsed c.

(** One member of a character set. *)
Definition class_code (t : token) : parsed ascii :=
  match t with
  | Plain c => Parsed c
  | Escaped c => escape c
  | Dangling => Malformed
  end.

Definition is_plain (c : ascii) (t : token) : bool :=
  match t with
  | Plain d => Ascii.eqb c d
  | _ => false
  end.

Definition nonempty {A : Type} (l : list A) : bool :=
  match l with [] => false | _ => true end.

Definition repeat_of (c : ascii) : option repeat :=
  if Ascii.eqb c "*" then Some ZeroOrMore
  else if Ascii.eqb c "+" then Some OneOrMore
  else if Ascii.eqb c "?" then Some ZeroOrOne
  else None.

Definition starts_with_suffix (source : list token) : bool :=
  match source with
  | t :: _ => is_plain "?" t || is_plain "+" t
  | [] => false
  end.

(** The parser.  [subpattern] holds the operations read so far, the last
    one first.  The syntax errors:
    a repeat with nothing before it or after [^] or [$], a repeat of a
    repeat, a set with no closing bracket, a range whose ends are out of
    order, a backslash that ends the pattern. *)
Fixpoint _parse (subpattern : list op) (source : list token) {struct source}
  : parsed (list op) :=
  match source with
  | [] => Parsed (rev subpattern)
  | Dangling :: _ => Malformed
  | Escaped c :: source' =>
      match escape c with
      | Parsed c' => _parse (Repeat Once (Literal c') :: subpattern) source'
      | Malformed => Malformed
      | Beyond => Beyond
      end
  | Plain c :: source' =>
      if Ascii.eqb c "[" then
        let negate :=
          match source' with t :: _ => is_plain "^" t | [] => false end in
        (fix set (items : list (ascii * ascii)) (src : list token)
             {struct src} : parsed (list op) :=
           match src with
           | [] => Malformed
           | this :: src' =>
               if is_plain "]" this && nonempty items then
                 _parse (Repeat Once (In negate (rev items)) :: subpattern)
                        src'
               else
                 match class_code this with
                 | Parsed code1 =>
                     match src' with
                     | that0 :: src'' =>
                         if is_plain "-" that0 then
                           match src'' with
                           | [] => Malformed
                           | that :: src''' =>
                               if is_plain "]" that then
                                 _parse
                                   (Repeat Once
                                      (In negate
                                         (rev (("-"%char, "-"%char)
                                                 :: (code1, code1) :: items)))
                                      :: subpattern)
                                   src'''
                               else
                                 match class_code that with
                                 | Parsed code2 =>
                                     if Ascii.ltb code2 code1
                                     then Malformed
                                     else set ((code1, code2) :: items) src'''
                                 | Malformed => Malformed
                                 | Beyond => Beyond
                                 end
                           end
                         else set ((code1, code1) :: items) src'
                     | [] => Malformed
                     end
                 | Malformed => Malformed
                 | Beyond => Beyond
                 end
           end) []
          (match source' with
           | t :: rest => if is_plain "^" t then rest else source'
           | [] => source'
           end)
      else
        match repeat_of c with
        | Some q =>
            match subpattern with
            | Repeat Once a :: subpattern' =>
                if starts_with_suffix source' then Beyond
                else _parse (Repeat q a :: subpattern') source'
            | _ => Malformed
            end
        | None =>
            if Ascii.eqb c "." then
              _parse (Repeat Once AnyChar :: subpattern) source'
            else if Ascii.eqb c "^" then
              _parse (At_Beginning :: subpattern) source'
            else if Ascii.eqb c "$" then
              _parse (At_End :: subpattern) source'
            else if Ascii.eqb c "(" || Ascii.eqb c ")" || Ascii.eqb c "|"
                    || Ascii.eqb c "{" then Beyond
            else _parse (Repeat Once (Literal c) :: subpattern) source'
        end
  end.

(** Matching.  No flag is ever passed: [.] is any character but a newline,
    [^] holds at the start of the string, [$] at its end and before a
    newline that ends it. *)

Definition in_ranges (ranges : list (ascii * ascii)) (c : ascii) : bool :=
  existsb (fun r => between (fst r) (snd r) c) ranges.

Definition atom_matches (a : atom) (c : ascii) : bool :=
  match a with
  | Literal d => Ascii.eqb d c
  | AnyChar => negb (Ascii.eqb c newline)
  | In negate ranges => xorb negate (in_ranges ranges c)
  end.

Definition at_end (s : string) : bool :=
  match s with
  | EmptyString => true
  | String c EmptyString => Ascii.eqb c newline
  | _ => false
  end.

(** As many characters matching [a] as there are, then fewer: the rest of
    the pattern [k] is tried after each count, the longest first.  [pos]
    is the number of characters of the whole string already consumed. *)
Fixpoint greedy (a : atom) (k : nat -> string -> bool) (pos : nat)
  (s : string) : bool :=
  match s with
  | String c s' => (atom_matches a c && greedy a k (S pos) s') || k pos s
  | EmptyString => k pos s
  end.

(** Does [p] match [s] from position [pos] on?  The pattern need not
    consume the whole string. *)
Fixpoint matches_at (p : list op) (pos : nat) (s : string) : bool :=
  match p with
  | [] => true
  | At_Beginning :: p' => Nat.eqb pos 0 && matches_at p' pos s
  | At_End :: p' => at_end s && matches_at p' pos s
  | Repeat Once a :: p' =>
      match s with
      | String c s' => atom_matches a c && matches_at p' (S pos) s'
      | EmptyString => false
      end
  | Repeat ZeroOrOne a :: p' =>
      match s with
      | String c s' =>
          (atom_matches a c && matches_at p' (S pos) s') || matches_at p' pos s
      | EmptyString => matches_at p' pos s
      end
  | Repeat ZeroOrMore a :: p' => greedy a (matches_at p') pos s
  | Repeat OneOrMore a :: p' =>
      match s with
      | String c s' => atom_matches a c && greedy a (matches_at p') (S pos) s'
      | EmptyString => false
      end
  end.

(** A compiled pattern: its operations, or a pattern beyond the syntax
    worked out here, which the interpreter's library matches. *)
Inductive Pattern : Type :=
| Code (code : list op)
| Opaque (pattern : string).

(** A match object; the module only tests whether there is one. *)
Inductive Match : Type := MatchObject.

Section Library.

Context {py : Python}.

(** [re.compile(pattern)] *)
Definition compile (pattern : string) : result Pattern :=
  match _parse [] (tokenize pattern) with
  | Parsed code => Ok (Code code)
  | Malformed => Raise re_error
  | Beyond =>
      match sre_compile pattern with
      | Some e => Raise e
      | None => Ok (Opaque pattern)
      end
  end.

(** Is there a match of [p] at the start of [string]? *)
Definition matches (p : Pattern) (string : string) : bool :=
  match p with
  | Code code => matches_at code 0 string
  | Opaque pattern => sre_match pattern string
  end.

(** [Pattern.match(string)]: a match at the start of the string, or None. *)
Definition Pattern_match (p : Pattern) (string : string) : option Match :=
  if matches p string then Some MatchObject else None.

(** [re.match(pattern, string)] compiles the pattern, then matches. *)
Definition match_ (pattern string : string) : result (option Match) :=
  p <- compile pattern ;;
  Ok (Pattern_match p string).

End Library.

End re.

(** [bool(m)] of what [re.match] returns: a match object is true. *)
Definition bool_ (m : option re.Match) : bool :=
  match m with
  | Some _ => true
  | None => false
  end.

(** ** The module *)

Definition ALPHANUMERIC_PATTERN : string := "^[a-zA-Z_][a-zA-Z0-9_\$]*$".
Definition NUMERIC_PATTERN : string := "[0-9]*$".
Definition ALPHA_PATTERN : string := "[a-zA-Z_]*$".

(** *** class Validator *)

Module Validator.

Record t : Type := { _pr : string }.

Definition __init__ (pattern_regex : string) : t :=
  {| _pr := pattern_regex |}.

Definition validate {py : Python} (self : t) (element : string)
  : result bool :=
  m <- re.match_ (_pr self) element ;;
  Ok (bool_ m).

End Validator.

(** *** class PatternValidator and its subclasses *)

(** The classes of the module, and [Subclass p]: any other subclass written
    as the three of the module are, whose [__init__(self)] calls
    [PatternValidator.__init__(self, p)]. *)
Inductive class : Type :=
| PatternValidator
| NumericValidator
| AlphaValidator
| AlphaNumericValidator
| Subclass (pattern : string).

(** An instance: its class and its one attribute, unset until [__init__]
    has run. *)
Record object : Type :=
  { __class__ : class;
    _validator : option Validator.t }.

(** [object.__new__(cls)] *)
Definition object___new__ (cls : class) : object :=
  {| __class__ := cls; _validator := None |}.

Definition PatternValidator___init__ (self : object) (pattern_regex : string)
  : object :=
  {| __class__ := __class__ self;
     _validator := Some (Validator.__init__ pattern_regex) |}.

Definition NumericValidator___init__ (self : object) : object :=
  PatternValidator___init__ self NUMERIC_PATTERN.

Definition AlphaValidator___init__ (self : object) : object :=
  PatternValidator___init__ self ALPHA_PATTERN.

Definition AlphaNumericValidator___init__ (self : object) : object :=
  PatternValidator___init__ self ALPHANUMERIC_PATTERN.

(** [self.__init__(args...)]: the [__init__] of the object's class; a call
    with the wrong number of arguments is a [TypeError]. *)
Definition __init__ (self : object) (args : list string) : result object :=
  match __class__ self, args with
  | PatternValidator, [pattern_regex] =>
      Ok (PatternValidator___init__ self pattern_regex)
  | NumericValidator, [] => Ok (NumericValidator___init__ self)
  | AlphaValidator, [] => Ok (AlphaValidator___init__ self)
  | AlphaNumericValidator, [] => Ok (AlphaNumericValidator___init__ self)
  | Subclass pattern, [] => Ok (PatternValidator___init__ self pattern)
  | _, _ => Raise TypeError
  end.

(** [cls(args...)]: a new object, initialised. *)
Definition instantiate (cls : class) (args : list string) : result object :=
  __init__ (object___new__ cls) args.

(** [self._validator]: an attribute that was never set is an
    [AttributeError]. *)
Definition get_validator (self : object) : result Validator.t :=
  match _validator self with
  | Some v => Ok v
  | None => Raise AttributeError
  end.

Section Methods.

Context {py : Python}.

(** [self._validator.validate(str(element))]: the validator is looked up,
    then the text is made, then the validator is called. *)
Definition _validate_pattern (self : object) (element : value) : result bool :=
  v <- get_validator self ;;
  s <- str element ;;
  Validator.validate v s.

(** [not (False in [...])] *)
Definition _validate_patterns (self : object) (args : list value)
  : result bool :=
  l <- comprehension (_validate_pattern self) args ;;
  Ok (negb (existsb (Bool.eqb false) l)).

(** [self.validate(args..., kwargs...)]: a keyword named [self] cannot be
    bound; [a and b] evaluates [b] only when [a] is true. *)
Definition validate (self : object) (args : list value) (kwargs : kwargs_t)
  : result bool :=
  _ <- bind_keywords "self" kwargs ;;
  a <- _validate_patterns self args ;;
  if a then _validate_patterns self (values kwargs) else Ok a.

(** The class method [cls.Validate(args..., kwargs...)]: a keyword named
    [cls] cannot be bound. *)
Definition Validate (cls : class) (args : list value) (kwargs : kwargs_t)
  : result bool :=
  _ <- bind_keywords "cls" kwargs ;;
  let obj := object___new__ cls in
  obj <- __init__ obj [] ;;
  validate obj args kwargs.

End Methods.

(** *** ValidateDecorator *)

Section Decorator.

Context {py : Python}.

(** Whatever the decorated function reads and writes outside itself. *)
Variable World : Type.

(** A Python function: called on [args] and [kwargs] it returns or raises,
    and may change the world. *)
Definition function : Type :=
  list value -> kwargs_t -> World -> result value * World.

(** The state of a run: the world, and the calls made to the decorated
    function so far, the oldest first. *)
Record state : Type :=
  { call_log : list (list value * kwargs_t);
    world : World }.

Definition M (A : Type) : Type := state -> result A * state.

Definition ret {A : Type} (a : A) : M A := fun st => (Ok a, st).

Definition raise {A : Type} (e : exception) : M A := fun st => (Raise e, st).

Definition lift {A : Type} (r : result A) : M A := fun st => (r, st).

Definition bindM {A B : Type} (c : M A) (k : A -> M B) : M B :=
  fun st =>
    match c st with
    | (Ok a, st') => k a st'
    | (Raise e, st') => (Raise e, st')
    end.

(** [func(args, kwargs)]: the call is logged, then the function runs. *)
Definition call (func : function) (args : list value) (kwargs : kwargs_t)
  : M value :=
  fun st =>
    let (r, w) := func args kwargs (world st) in
    (r, {| call_log := call_log st ++ [(args, kwargs)]; world := w |}).

Notation "x <~ c ;; k" := (bindM c (fun x => k))
  (at level 61, c at next level, right associativity).

(** The decorator: [ValidateDecorator(type_class, _return, _raise)] returns
    [wrap_func], and [wrap_func(func)] returns [wrap_args].  [wrap_args]
    takes any keywords and hands them on to [type_class.Validate] and to
    [func].  A call of [wrap_args] that does not reach a [return] returns
    None. *)
Definition ValidateDecorator (type_class : class) (_return : bool)
  (_raise : ErrorKind) : function -> list value -> kwargs_t -> M value :=
  fun func (* wrap_func *) =>
    fun args kwargs (* wrap_args *) =>
      passed <~ lift (Validate type_class args kwargs) ;;
      if passed then
        _res <~ call func args kwargs ;;
        if _return then ret _res else ret VNone
      else raise (Instance _raise []).

Definition NumericValidateDecorator (_return : bool) :=
  ValidateDecorator NumericValidator _return NumericValidatorException.

Definition AlphaValidateDecorator (_return : bool) :=
  ValidateDecorator AlphaValidator _return AlphaValidatorException.

Definition AlphaNumericValidateDecorator (_return : bool) :=
  ValidateDecorator AlphaNumericValidator _return
    AlphaNumericValidatorException.

End Decorator.

Arguments function World : clear implicits.
Arguments state World : clear implicits.
Arguments call_log {World} s.
Arguments world {World} s.
Arguments Build_state {World} call_log world.
Arguments ValidateDecorator {py World} type_class _return _raise _ _ _ _.
Arguments NumericValidateDecorator {py World} _return _ _ _ _.
Arguments AlphaValidateDecorator {py World} _return _ _ _ _.
Arguments AlphaNumericValidateDecorator {py World} _return _ _ _ _.

(** ** Definitions for the statements *)

(** The pattern a class binds its instances to when built with no argument;
    the base class binds none. *)
Definition pattern_of (cls : class) : option string :=
  match cls with
  | PatternValidator => None
  | NumericValidator => Some NUMERIC_PATTERN
  | AlphaValidator => Some ALPHA_PATTERN
  | AlphaNumericValidator => Some ALPHANUMERIC_PATTERN
  | Subclass pattern => Some pattern
  end.

(** The three named subclasses of the module. *)
Definition named_subclasses : list class :=
  [NumericValidator; AlphaValidator; AlphaNumericValidator].

Section StatementDefinitions.

Context {py : Python}.

(** The value has a text: [str] returns on it. *)
Definition has_text (v : value) : Prop := exists s, str v = Ok s.

(** The text of the value satisfies the pattern, and fails it. *)
Definition satisfies (p : string) (v : value) : Prop :=
  exists s,
    str v = Ok s /\ Validator.validate (Validator.__init__ p) s = Ok true.

Definition fails (p : string) (v : value) : Prop :=
  exists s,
    str v = Ok s /\ Validator.validate (Validator.__init__ p) s = Ok false.

(** What [_validate_pattern] answers on an element, when it answers. *)
Definition verdict (self : object) (element : value) : bool :=
  match _validate_pattern self element with
  | Ok b => b
  | Raise _ => false
  end.

(** Following the specification: build an instance with the class's
    no-argument constructor, then call [validate] on it. *)
Definition construct_then_validate (cls : class) (args : list value)
  (kwargs : kwargs_t) : result bool :=
  self <- instantiate cls [] ;;
  validate self args kwargs.

Definition numeric : Validator.t := Validator.__init__ NUMERIC_PATTERN.
Definition alpha : Validator.t := Validator.__init__ ALPHA_PATTERN.
Definition alphanumeric : Validator.t :=
  Validator.__init__ ALPHANUMERIC_PATTERN.

End StatementDefinitions.

(** String arguments, positional and keyword. *)
Definition string_args (args : list string) : list value := map VStr args.
Definition string_kwargs (kwargs : list (string * string)) : kwargs_t :=
  map (fun kv => (fst kv, VStr (snd kv))) kwargs.

(** Integer arguments, positional and keyword. *)
Definition int_args (zs : list Z) : list value := map VInt zs.
Definition int_kwargs (kws : list (string * Z)) : kwargs_t :=
  map (fun kz => (fst kz, VInt (snd kz))) kws.

(** The character sets of the three patterns. *)
Definition digits : re.atom := re.In false [("0", "9")]%char.
Definition letters : re.atom :=
  re.In false [("a", "z"); ("A", "Z"); ("_", "_")]%char.
Definition identifier_chars : re.atom :=
  re.In false [("a", "z"); ("A", "Z"); ("0", "9"); ("_", "_"); ("$", "$")]%char.

(** [sm(a, b)] returns [a + b] and counts its calls in the world. *)
Definition sm : function nat :=
  fun args kwargs calls =>
    match args, kwargs with
    | [VInt a; VInt b], [] => (Ok (VInt (a + b)), S calls)
    | _, _ => (Raise TypeError, S calls)
    end.

Definition initial : state nat := {| call_log := []; world := 0 |}.

Fixpoint string_forallb (f : ascii -> bool) (s : string) : bool :=
  match s with
  | EmptyString => true
  | String c s' => f c && string_forallb f s'
  end.

(** A digit is one of the ten characters 0 to 9. *)
Definition is_digit (c : ascii) : bool :=
  existsb (Ascii.eqb c) (list_ascii_of_string "0123456789").

Definition all_digits (s : string) : bool := string_forallb is_digit s.

(** A string that is one newline. *)
Definition nl : string := String re.newline EmptyString.

(** A letter of the alpha pattern: an ASCII letter or the underscore. *)
Definition is_letter (c : ascii) : bool :=
  existsb (Ascii.eqb c)
    (list_ascii_of_string
       "abcdefghijklmnopqrstuvwxyzABCDEFGHIJKLMNOPQRSTUVWXYZ_").

(** A character an identifier goes on with: a letter, a digit or a dollar. *)
Definition is_identifier_char (c : ascii) : bool :=
  is_letter c || is_digit c || Ascii.eqb c "$".

Definition all_letters (s : string) : bool := string_forallb is_letter s.

Definition all_identifier_chars (s : string) : bool :=
  string_forallb is_identifier_char s.

(** Does a compiled pattern use [$] anywhere? *)
Definition is_At_End (o : re.op) : bool :=
  match o with
  | re.At_End => true
  | _ => false
  end.

Definition mentions_end (code : list re.op) : bool := existsb is_At_End code.

(** The objects of the examples: [PatternValidator(ALPHA_PATTERN)] and
    [NumericValidator()]. *)
Definition alpha_validator : object :=
  PatternValidator___init__ (object___new__ PatternValidator) ALPHA_PATTERN.

Definition numeric_validator : object :=
  NumericValidator___init__ (object___new__ NumericValidator).

(** An interpreter to run the examples on, with the default limit of 4300
    digits.  The examples use patterns of the syntax worked out above only,
    which never reach its library; it refuses every other pattern. *)
Definition example_interpreter : Python :=
  {| int_max_str_digits := 4300;
     sre_compile := fun _ => Some re_error;
     sre_match := fun _ _ => false |}.

(** * Properties *)

Section Properties.

Context {py : Python}.

(** ** The validators, for any pattern *)

Lemma bool_Pattern_match (r : re.Pattern) (s : string) :
  bool_ (re.Pattern_match r s) = re.matches r s.
Proof.
  unfold re.Pattern_match. destruct (re.matches r s); reflexivity.
Qed.

(** A validator either fails on its pattern, whatever the element, or
    answers with the match. *)
Lemma Validator_validate_eq (v : Validator.t) (s : string) :
  Validator.validate v s =
  r <- re.compile (Validator._pr v) ;; Ok (re.matches r s).
Proof.
  unfold Validator.validate, re.match_.
  destruct (re.compile (Validator._pr v)); simpl; try reflexivity.
  now rewrite bool_Pattern_match.
Qed.

Lemma not_False_in (l : list bool) :
  negb (existsb (Bool.eqb false) l) = forallb (fun b => b) l.
Proof.
  induction l as [|b l IH]; simpl; trivial.
  rewrite negb_orb, IH. now destruct b.
Qed.

Lemma forallb_map {A B : Type} (f : A -> B) (g : B -> bool) (l : list A) :
  forallb g (map f l) = forallb (fun a => g (f a)) l.
Proof. induction l as [|a l IH]; simpl; trivial. now rewrite IH. Qed.

Lemma comprehension_inv {A B : Type} (f : A -> result B) (l : list A)
  (bs : list B) :
  comprehension f l = Ok bs -> forall e, In e l -> exists b, f e = Ok b.
Proof.
  revert bs. induction l as [|a l IH]; intros bs H e He; [destruct He|].
  cbn [comprehension] in H.
  destruct (f a) as [b|] eqn:Ea; [|discriminate]. cbn [bind] in H.
  destruct (comprehension f l) as [bs'|]; [|discriminate].
  destruct He as [<-|He]; [now exists b|]. now apply (IH bs').
Qed.

Lemma comprehension_total {A : Type} (f : A -> result bool) (l : list A) :
  (forall e, In e l -> exists b, f e = Ok b) ->
  comprehension f l
  = Ok (map (fun e => match f e with Ok b => b | Raise _ => false end) l).
Proof.
  induction l as [|a l IH]; intros H; [reflexivity|].
  cbn [comprehension map].
  destruct (H a (or_introl eq_refl)) as [b ->]. cbn [bind].
  rewrite IH; [reflexivity|]. intros e He. apply H. now right.
Qed.

(** [_validate_patterns] returns a boolean exactly when every element gets
    an answer, and the boolean is the conjunction of the answers. *)
Lemma _validate_patterns_Ok_iff (self : object) (l : list value) (b : bool) :
  _validate_patterns self l = Ok b <->
  (forall e, In e l -> exists c, _validate_pattern self e = Ok c) /\
  b = forallb (verdict self) l.
Proof.
  unfold _validate_patterns. split.
  - intros H.
    destruct (comprehension (_validate_pattern self) l) as [bs|] eqn:E;
      [|discriminate].
    pose proof (comprehension_inv _ _ _ E) as Hall. split; [exact Hall|].
    rewrite (comprehension_total _ _ Hall) in E. injection E as <-.
    cbn [bind] in H. injection H as <-.
    now rewrite not_False_in, forallb_map.
  - intros [Hall ->]. rewrite (comprehension_total _ _ Hall). cbn [bind].
    now rewrite not_False_in, forallb_map.
Qed.

Lemma _validate_patterns_true (self : object) (l : list value) :
  _validate_patterns self l = Ok true <->
  forall e, In e l -> _validate_pattern self e = Ok true.
Proof.
  rewrite _validate_patterns_Ok_iff. split.
  - intros [Hall Hb] e He. symmetry in Hb.
    rewrite forallb_forall in Hb. specialize (Hb e He).
    destruct (Hall e He) as [c Hc]. unfold verdict in Hb.
    rewrite Hc in Hb. now subst c.
  - intros H. split.
    + intros e He. exists true. now apply H.
    + symmetry. apply forallb_forall. intros e He. unfold verdict.
      now rewrite (H e He).
Qed.

Lemma forallb_Permutation {A : Type} (f : A -> bool) (l l' : list A) :
  Permutation l l' -> forallb f l = forallb f l'.
Proof.
  induction 1 as [|x l l' _ IH|x y l|l l' l'' _ IH1 _ IH2]; simpl.
  - reflexivity.
  - now rewrite IH.
  - now destruct (f x), (f y).
  - now rewrite IH1.
Qed.

(** The boolean [_validate_patterns] returns does not depend on the order
    of the elements. *)
Lemma _validate_patterns_Permutation (self : object) (l l' : list value)
  (b : bool) :
  Permutation l l' ->
  _validate_patterns self l = Ok b -> _validate_patterns self l' = Ok b.
Proof.
  intros P. rewrite !_validate_patterns_Ok_iff. intros [Hall ->]. split.
  - intros e He. apply Hall. now apply (Permutation_in _ (Permutation_sym P)).
  - now apply forallb_Permutation.
Qed.

Lemma bind_keywords_Ok (param : string) (kwargs : kwargs_t) :
  has_name param kwargs = false -> bind_keywords param kwargs = Ok tt.
Proof. unfold bind_keywords. now intros ->. Qed.

Lemma bind_keywords_Raise (param : string) (kwargs : kwargs_t) :
  has_name param kwargs = true -> bind_keywords param kwargs = Raise TypeError.
Proof. unfold bind_keywords. now intros ->. Qed.

Lemma validate_bound (self : object) (args : list value) (kwargs : kwargs_t) :
  has_name "self" kwargs = false ->
  validate self args kwargs =
  a <- _validate_patterns self args ;;
  if a then _validate_patterns self (values kwargs) else Ok a.
Proof. intros H. unfold validate. now rewrite (bind_keywords_Ok _ _ H). Qed.

Lemma validate_true (self : object) (args : list value) (kwargs : kwargs_t) :
  has_name "self" kwargs = false ->
  validate self args kwargs = Ok true <->
  _validate_patterns self args = Ok true /\
  _validate_patterns self (values kwargs) = Ok true.
Proof.
  intros H. rewrite (validate_bound _ _ _ H).
  destruct (_validate_patterns self args) as [[|]|]; cbn [bind];
    split; try (intros [? ?]); try discriminate; auto.
Qed.

Lemma In_values (kwargs : kwargs_t) (v : value) :
  In v (values kwargs) <-> exists k, In (k, v) kwargs.
Proof.
  unfold values. rewrite in_map_iff. split.
  - intros [[k v'] [E H]]. simpl in E. subst. now exists k.
  - intros [k H]. now exists (k, v).
Qed.

(** [PatternValidator(p)] is an object holding [Validator(p)]. *)
Lemma instantiate_PatternValidator (p : string) (self : object) :
  instantiate PatternValidator [p] = Ok self ->
  get_validator self = Ok (Validator.__init__ p).
Proof. intros H. injection H as <-. reflexivity. Qed.

(** An element with a text, under a validator whose pattern compiles. *)
Lemma _validate_pattern_text (self : object) (v : Validator.t)
  (r : re.Pattern) (e : value) (s : string) :
  get_validator self = Ok v ->
  re.compile (Validator._pr v) = Ok r ->
  str e = Ok s ->
  _validate_pattern self e = Ok (re.matches r s).
Proof.
  intros Hv Hr Hs. unfold _validate_pattern. rewrite Hv. cbn [bind].
  rewrite Hs. cbn [bind]. rewrite Validator_validate_eq, Hr. reflexivity.
Qed.

Lemma _validate_patterns_texts (self : object) (v : Validator.t)
  (r : re.Pattern) (l : list value) :
  get_validator self = Ok v ->
  re.compile (Validator._pr v) = Ok r ->
  (forall e, In e l -> has_text e) ->
  _validate_patterns self l = Ok (forallb (verdict self) l).
Proof.
  intros Hv Hr Hl. apply _validate_patterns_Ok_iff. split; [|reflexivity].
  intros e He. destruct (Hl e He) as [s Hs].
  exists (re.matches r s). now apply (_validate_pattern_text self v).
Qed.

Lemma validate_texts (self : object) (v : Validator.t) (r : re.Pattern)
  (args : list value) (kwargs : kwargs_t) :
  get_validator self = Ok v ->
  re.compile (Validator._pr v) = Ok r ->
  has_name "self" kwargs = false ->
  (forall e, In e (args ++ values kwargs) -> has_text e) ->
  validate self args kwargs
  = Ok (forallb (verdict self) (args ++ values kwargs)).
Proof.
  intros Hv Hr Hself Hl. rewrite (validate_bound _ _ _ Hself).
  rewrite (_validate_patterns_texts self v r args Hv Hr)
    by (intros e He; apply Hl, in_or_app; auto).
  rewrite (_validate_patterns_texts self v r (values kwargs) Hv Hr)
    by (intros e He; apply Hl, in_or_app; auto).
  cbn [bind]. rewrite forallb_app.
  now destruct (forallb (verdict self) args).
Qed.

(** The three patterns of the module compile. *)
Lemma compile_NUMERIC_PATTERN :
  re.compile NUMERIC_PATTERN
  = Ok (re.Code [re.Repeat re.ZeroOrMore digits; re.At_End]).
Proof. reflexivity. Qed.

Lemma compile_ALPHA_PATTERN :
  re.compile ALPHA_PATTERN
  = Ok (re.Code [re.Repeat re.ZeroOrMore letters; re.At_End]).
Proof. reflexivity. Qed.

Lemma compile_ALPHANUMERIC_PATTERN :
  re.compile ALPHANUMERIC_PATTERN =
  Ok (re.Code [re.At_Beginning; re.Repeat re.Once letters;
               re.Repeat re.ZeroOrMore identifier_chars; re.At_End]).
Proof. reflexivity. Qed.

Lemma instantiate_no_argument (cls : class) (self : object) :
  instantiate cls [] = Ok self ->
  exists p,
    pattern_of cls = Some p /\
    get_validator self = Ok (Validator.__init__ p).
Proof.
  destruct cls; cbn; intros H; try discriminate; injection H as <-;
    eexists; split; reflexivity.
Qed.

Lemma instantiate_named (cls : class) :
  In cls named_subclasses ->
  exists self p r,
    instantiate cls [] = Ok self /\
    pattern_of cls = Some p /\
    get_validator self = Ok (Validator.__init__ p) /\
    re.compile p = Ok r.
Proof.
  intros [<-|[<-|[<-|[]]]]; do 3 eexists; repeat split.
Qed.

Lemma Validate_instantiate (cls : class) (self : object)
  (args : list value) (kwargs : kwargs_t) :
  instantiate cls [] = Ok self ->
  has_name "cls" kwargs = false ->
  Validate cls args kwargs = validate self args kwargs.
Proof.
  unfold Validate, instantiate. intros -> H.
  now rewrite (bind_keywords_Ok _ _ H).
Qed.

Lemma _validate_pattern_of_class (cls : class) (self : object) (p : string)
  (a : value) :
  instantiate cls [] = Ok self ->
  pattern_of cls = Some p ->
  _validate_pattern self a
  = s <- str a ;; Validator.validate (Validator.__init__ p) s.
Proof.
  intros H E. destruct (instantiate_no_argument _ _ H) as (p' & E' & Hv).
  rewrite E in E'. injection E' as <-.
  unfold _validate_pattern. now rewrite Hv.
Qed.

Lemma _validate_pattern_true_satisfies (self : object) (p : string)
  (a : value) :
  get_validator self = Ok (Validator.__init__ p) ->
  _validate_pattern self a = Ok true <-> satisfies p a.
Proof.
  intros Hv. unfold _validate_pattern, satisfies. rewrite Hv. cbn [bind].
  destruct (str a) as [s|e]; cbn [bind].
  - split; [intros H; now exists s|]. now intros (s' & [= <-] & H).
  - split; [discriminate|]. now intros (s' & H & _).
Qed.

Lemma _validate_pattern_false_fails (self : object) (p : string)
  (a : value) :
  get_validator self = Ok (Validator.__init__ p) ->
  _validate_pattern self a = Ok false <-> fails p a.
Proof.
  intros Hv. unfold _validate_pattern, fails. rewrite Hv. cbn [bind].
  destruct (str a) as [s|e]; cbn [bind].
  - split; [intros H; now exists s|]. now intros (s' & [= <-] & H).
  - split; [discriminate|]. now intros (s' & H & _).
Qed.

(** ** The conjunction over all arguments (C1) *)


(** ** Totality of validate (C7) *)

(** C7, amended.  For every pattern that compiles and every string input
    with no keyword named [self], [Validator.validate] and
    [PatternValidator.validate] return a boolean and raise nothing. *)
Theorem validate_returns_a_boolean (p : string) (r : re.Pattern) :
  re.compile p = Ok r ->
  (forall s : string,
      exists b : bool, Validator.validate (Validator.__init__ p) s = Ok b) /\
  (forall (self : object) (args : list string)
          (kwargs : list (string * string)),
      instantiate PatternValidator [p] = Ok self ->
      has_name "self" (string_kwargs kwargs) = false ->
      exists b : bool,
        validate self (string_args args) (string_kwargs kwargs) = Ok b).
Proof.
  intros Hr. split.
  - intros s. rewrite Validator_validate_eq.
    unfold Validator.__init__. cbn [Validator._pr]. rewrite Hr.
    now eexists.
  - intros self args kwargs Hself Hk.
    apply instantiate_PatternValidator in Hself.
    rewrite (validate_texts self _ r _ _ Hself Hr Hk); [now eexists|].
    intros e He. apply in_app_or in He as [He|He].
    + unfold string_args in He. apply in_map_iff in He as (s & <- & _).
      now exists s.
    + unfold string_kwargs, values in He. rewrite map_map in He.
      apply in_map_iff in He as (kv & <- & _). now eexists.
Qed.

(** ** Keyword names (C9) *)


(** ** Validate on the base class (C10) *)

Lemma Validate_base_class (args : list value) (kwargs : kwargs_t) :
  Validate PatternValidator args kwargs = Raise TypeError.
Proof.
  unfold Validate, bind_keywords. now destruct (has_name "cls" kwargs).
Qed.

(** C10.  [PatternValidator.Validate(...)] on the base class raises
    [TypeError] whatever the arguments, and returns no boolean: its
    [__init__] wants a pattern and [Validate] passes none. *)
Theorem Validate_on_base_class_raises_TypeError
  (args : list value) (kwargs : kwargs_t) :
  Validate PatternValidator args kwargs = Raise TypeError /\
  forall b : bool, Validate PatternValidator args kwargs <> Ok b.
Proof.
  rewrite Validate_base_class. split; [reflexivity|discriminate].
Qed.

(** ** Validate on the named subclasses (C6) *)


(** ** The decorator *)

Lemma Validate_false (type_class : class) (self : object)
  (args : list value) (kwargs : kwargs_t) (a : value) :
  instantiate type_class [] = Ok self ->
  has_name "cls" kwargs = false ->
  has_name "self" kwargs = false ->
  (forall v, In v (args ++ values kwargs) -> has_text v) ->
  In a (args ++ values kwargs) ->
  _validate_pattern self a = Ok false ->
  Validate type_class args kwargs = Ok false.
Proof.
  intros Hself Hc Hs Ht Ia Ha.
  destruct (instantiate_no_argument _ _ Hself) as (p & _ & Hv).
  assert (exists r, re.compile p = Ok r) as [r Hr].
  { unfold _validate_pattern in Ha. rewrite Hv in Ha. cbn [bind] in Ha.
    destruct (str a) as [s|]; [|discriminate]. cbn [bind] in Ha.
    rewrite Validator_validate_eq in Ha.
    change (Validator._pr (Validator.__init__ p)) with p in Ha.
    destruct (re.compile p) as [r|]; [now exists r|discriminate]. }
  rewrite (Validate_instantiate _ _ _ _ Hself Hc).
  rewrite (validate_texts self _ r _ _ Hv Hr Hs Ht). f_equal.
  destruct (forallb (verdict self) (args ++ values kwargs)) eqn:E; trivial.
  rewrite forallb_forall in E. specialize (E a Ia). unfold verdict in E.
  now rewrite Ha in E.
Qed.

Lemma Validate_true (type_class : class) (self : object)
  (args : list value) (kwargs : kwargs_t) :
  instantiate type_class [] = Ok self ->
  has_name "cls" kwargs = false ->
  has_name "self" kwargs = false ->
  (forall a, In a (args ++ values kwargs) ->
     _validate_pattern self a = Ok true) ->
  Validate type_class args kwargs = Ok true.
Proof.
  intros Hself Hc Hs H.
  rewrite (Validate_instantiate _ _ _ _ Hself Hc).
  apply (validate_true _ _ _ Hs). rewrite !_validate_patterns_true.
  split; intros e He; apply H, in_or_app; auto.
Qed.

Section DecoratorProperties.

Context {World : Type}.
Variables (type_class : class) (_return : bool) (_raise : ErrorKind).
Variables (func : function World) (args : list value) (kwargs : kwargs_t).
Variable st : state World.

Lemma wrap_args_rejected :
  Validate type_class args kwargs = Ok false ->
  ValidateDecorator type_class _return _raise func args kwargs st
  = (Raise (Instance _raise []), st).
Proof.
  intros H. unfold ValidateDecorator, bindM, lift. now rewrite H.
Qed.

Lemma wrap_args_accepted :
  Validate type_class args kwargs = Ok true ->
  ValidateDecorator type_class _return _raise func args kwargs st
  = (match fst (func args kwargs (world st)) with
     | Ok _res => Ok (if _return then _res else VNone)
     | Raise e => Raise e
     end,
     {| call_log := call_log st ++ [(args, kwargs)];
        world := snd (func args kwargs (world st)) |}).
Proof.
  intros H. unfold ValidateDecorator, bindM, lift, call.
  rewrite H.
  destruct (func args kwargs (world st)) as [[res|e] w]; cbn [fst snd];
    try reflexivity.
  now destruct _return.
Qed.

Lemma wrap_args_raised (e : exception) :
  Validate type_class args kwargs = Raise e ->
  ValidateDecorator type_class _return _raise func args kwargs st
  = (Raise e, st).
Proof.
  intros H. unfold ValidateDecorator, bindM, lift. now rewrite H.
Qed.

End DecoratorProperties.

(** ** A rejected call (C2) *)

(** C2, amended.  When no keyword of a call to the decorated function is
    named [cls] or [self], every argument has a text and some argument fails
    validation, the call raises an instance of the error kind built with no
    argument, and the original function is not invoked: nothing is logged
    and the world is as it was. *)
Theorem decorated_call_raises_on_invalid_argument
  {World : Type} (type_class : class) (_return : bool) (_raise : ErrorKind)
  (func : function World) (args : list value) (kwargs : kwargs_t)
  (st : state World) (self : object) (a : value) :
  instantiate type_class [] = Ok self ->
  has_name "cls" kwargs = false ->
  has_name "self" kwargs = false ->
  (forall v, In v (args ++ values kwargs) -> has_text v) ->
  In a (args ++ values kwargs) ->
  _validate_pattern self a = Ok false ->
  ValidateDecorator type_class _return _raise func args kwargs st
  = (Raise (Instance _raise []), st).
Proof.
  intros Hself Hc Hs Ht Ia Ha. apply wrap_args_rejected.
  exact (Validate_false _ _ _ _ _ Hself Hc Hs Ht Ia Ha).
Qed.

(** ** An accepted call (C3) *)


(** ** The named decorators (C8) *)

Lemma decorator_of_class_rejects {World : Type} (cls : class) (p : string)
  (_return : bool) (_raise : ErrorKind) (func : function World)
  (args : list value) (kwargs : kwargs_t) (st : state World) :
  In cls named_subclasses ->
  pattern_of cls = Some p ->
  has_name "cls" kwargs = false ->
  has_name "self" kwargs = false ->
  (forall v, In v (args ++ values kwargs) -> has_text v) ->
  (exists a, In a (args ++ values kwargs) /\ fails p a) ->
  ValidateDecorator cls _return _raise func args kwargs st
  = (Raise (Instance _raise []), st).
Proof.
  intros Hcls Hp Hc Hs Ht (a & Ia & Ha).
  destruct (instantiate_named cls Hcls)
    as (self & p' & r & Hself & Hp' & Hv & _).
  rewrite Hp in Hp'. injection Hp' as <-.
  apply wrap_args_rejected, (Validate_false cls self args kwargs a);
    trivial.
  now apply (_validate_pattern_false_fails self p a Hv).
Qed.

Lemma decorator_of_class_accepts {World : Type} (cls : class) (p : string)
  (_return : bool) (_raise : ErrorKind) (func : function World)
  (args : list value) (kwargs : kwargs_t) (st : state World) :
  In cls named_subclasses ->
  pattern_of cls = Some p ->
  has_name "cls" kwargs = false ->
  has_name "self" kwargs = false ->
  (forall a, In a (args ++ values kwargs) -> satisfies p a) ->
  ValidateDecorator cls _return _raise func args kwargs st
  = (match fst (func args kwargs (world st)) with
     | Ok _res => Ok (if _return then _res else VNone)
     | Raise e => Raise e
     end,
     {| call_log := call_log st ++ [(args, kwargs)];
        world := snd (func args kwargs (world st)) |}).
Proof.
  intros Hcls Hp Hc Hs Ha.
  destruct (instantiate_named cls Hcls)
    as (self & p' & r & Hself & Hp' & Hv & _).
  rewrite Hp in Hp'. injection Hp' as <-.
  apply wrap_args_accepted, (Validate_true cls self args kwargs); trivial.
  intros a Ia. apply (_validate_pattern_true_satisfies self p a Hv).
  now apply Ha.
Qed.


(** ** The three patterns *)

Lemma digits_matches (c : ascii) : re.atom_matches digits c = is_digit c.
Proof. destruct c as [[] [] [] [] [] [] [] []]; reflexivity. Qed.

Lemma letters_reject_digits (c : ascii) :
  is_digit c = true -> re.atom_matches letters c = false.
Proof. destruct c as [[] [] [] [] [] [] [] []]; trivial; discriminate. Qed.

Lemma append_empty (s : string) : (s ++ EmptyString)%string = s.
Proof. induction s as [|c s IH]; simpl; [reflexivity|now rewrite IH]. Qed.

Lemma string_forallb_ext (f g : ascii -> bool) (s : string) :
  (forall c, f c = g c) -> string_forallb f s = string_forallb g s.
Proof.
  intros E. induction s as [|c s IH]; simpl; trivial. now rewrite E, IH.
Qed.

(** A greedy repeat succeeds exactly when the string splits into a run of
    matching characters and a rest on which the continuation succeeds. *)
Lemma greedy_true (a : re.atom) (k : nat -> string -> bool) (s : string) :
  forall pos,
    re.greedy a k pos s = true <->
    exists d rest,
      s = (d ++ rest)%string /\
      string_forallb (re.atom_matches a) d = true /\
      k (pos + String.length d) rest = true.
Proof.
  induction s as [|c s IH]; intros pos; cbn [re.greedy].
  - split.
    + intros H. exists EmptyString, EmptyString. rewrite Nat.add_0_r. auto.
    + intros (d & rest & E & _ & H).
      destruct d; [|discriminate]. simpl in E. subst rest.
      now rewrite Nat.add_0_r in H.
  - rewrite orb_true_iff, andb_true_iff, IH. split.
    + intros [[Hc (d & rest & -> & Hd & Hk)]|Hk].
      * exists (String c d), rest. cbn. rewrite Hc, Hd.
        rewrite Nat.add_succ_r. auto.
      * exists EmptyString, (String c s). rewrite Nat.add_0_r. auto.
    + intros (d & rest & E & Hd & Hk). destruct d as [|c' d].
      * right. simpl in E. subst rest. now rewrite Nat.add_0_r in Hk.
      * left. cbn in E, Hd, Hk. injection E as <- ->.
        apply andb_true_iff in Hd as [Hc Hd]. split; trivial.
        exists d, rest. rewrite Nat.add_succ_r in Hk. auto.
Qed.

Lemma at_end_true (s : string) :
  re.at_end s = true <-> s = EmptyString \/ s = nl.
Proof.
  destruct s as [|c [|c' s]]; cbn.
  - tauto.
  - rewrite Ascii.eqb_eq. unfold nl. split.
    + intros ->. now right.
    + intros [H|H]; [discriminate|now injection H].
  - split; [discriminate|]. intros [H|H]; discriminate.
Qed.

(** The numeric validator accepts the digit strings and the digit strings
    followed by one newline, and nothing else. *)
Lemma numeric_validate_eq (s : string) :
  Validator.validate numeric s
  = Ok (re.greedy digits (re.matches_at [re.At_End]) 0 s).
Proof. now rewrite Validator_validate_eq. Qed.

Lemma numeric_validate_true (s : string) :
  Validator.validate numeric s = Ok true <->
  exists d, all_digits d = true /\ (s = d \/ s = (d ++ nl)%string).
Proof.
  rewrite numeric_validate_eq. split.
  - intros H. injection H as H.
    apply greedy_true in H as (d & rest & -> & Hd & Hk).
    exists d. split.
    + unfold all_digits. rewrite <- Hd. apply string_forallb_ext.
      intros c. symmetry. apply digits_matches.
    + cbn in Hk. rewrite andb_true_r in Hk.
      apply at_end_true in Hk as [-> | ->]; [left|right]; trivial.
      now rewrite append_empty.
  - intros (d & Hd & Hs). f_equal. apply greedy_true.
    assert (Hd' : string_forallb (re.atom_matches digits) d = true).
    { rewrite <- Hd. apply string_forallb_ext, digits_matches. }
    destruct Hs as [-> | ->].
    + exists d, EmptyString. rewrite append_empty. auto.
    + exists d, nl. auto.
Qed.

(** ** The numeric pattern (C4) *)

(** C4, amended.  The numeric validator returns true on every string of
    digits; it returns true exactly on the strings of digits and on those
    followed by one final newline, and false on every other string;
    [validate] of 123 is true, of 12a false, of the empty string true. *)
Theorem numeric_validate_spec :
  (forall s, all_digits s = true -> Validator.validate numeric s = Ok true) /\
  (forall s,
      Validator.validate numeric s = Ok true <->
      exists d, all_digits d = true /\ (s = d \/ s = (d ++ nl)%string)) /\
  (forall s,
      (forall d, all_digits d = true -> s <> d /\ s <> (d ++ nl)%string) ->
      Validator.validate numeric s = Ok false) /\
  Validator.validate numeric "123" = Ok true /\
  Validator.validate numeric "12a" = Ok false /\
  Validator.validate numeric EmptyString = Ok true.
Proof.
  split; [|split; [|split]].
  - intros s Hs. apply numeric_validate_true. exists s. auto.
  - exact numeric_validate_true.
  - intros s Hs.
    destruct (re.greedy digits (re.matches_at [re.At_End]) 0 s) eqn:E;
      rewrite numeric_validate_eq, E; trivial.
    assert (H : Validator.validate numeric s = Ok true)
      by now rewrite numeric_validate_eq, E.
    apply numeric_validate_true in H as (d & Hd & Hs').
    destruct (Hs d Hd) as [H1 H2]. destruct Hs'; contradiction.
  - repeat split.
Qed.

(** ** The alphanumeric pattern (C5) *)

(** C5.  The alphanumeric validator accepts [_a9$], rejects [9abc] as it
    rejects every string that starts with a digit, and rejects the empty
    string; the numeric and the alpha validators accept the empty string. *)
Theorem alphanumeric_validate_examples :
  Validator.validate alphanumeric "_a9$" = Ok true /\
  Validator.validate alphanumeric "9abc" = Ok false /\
  (forall c s, is_digit c = true ->
               Validator.validate alphanumeric (String c s) = Ok false) /\
  Validator.validate alphanumeric EmptyString = Ok false /\
  Validator.validate numeric EmptyString = Ok true /\
  Validator.validate alpha EmptyString = Ok true.
Proof.
  repeat split.
  intros c s Hc. rewrite Validator_validate_eq.
  change (Ok (re.atom_matches letters c &&
              re.greedy identifier_chars (re.matches_at [re.At_End]) 1 s)
          = Ok false).
  now rewrite (letters_reject_digits c Hc).
Qed.


(** ** The alpha and the alphanumeric patterns *)

Lemma letters_matches (c : ascii) : re.atom_matches letters c = is_letter c.
Proof. destruct c as [[] [] [] [] [] [] [] []]; reflexivity. Qed.

Lemma identifier_chars_matches (c : ascii) :
  re.atom_matches identifier_chars c = is_identifier_char c.
Proof. destruct c as [[] [] [] [] [] [] [] []]; reflexivity. Qed.

Lemma letter_not_digit_nor_newline (c : ascii) :
  is_letter c = true -> is_digit c = false /\ Ascii.eqb c re.newline = false.
Proof.
  destruct c as [[] [] [] [] [] [] [] []]; try discriminate; now split.
Qed.

Lemma letter_is_identifier_char (c : ascii) :
  is_letter c = true -> is_identifier_char c = true.
Proof. unfold is_identifier_char. now intros ->. Qed.

(** A starred set followed by [$], from any position: a run of members of
    the set, then the end of the string or one last newline. *)
Lemma starred_set_then_end (a : re.atom) (f : ascii -> bool) (pos : nat)
  (s : string) :
  (forall c, re.atom_matches a c = f c) ->
  re.greedy a (re.matches_at [re.At_End]) pos s = true <->
  exists d, string_forallb f d = true /\ (s = d \/ s = (d ++ nl)%string).
Proof.
  intros Hf. rewrite greedy_true. split.
  - intros (d & rest & -> & Hd & Hk). exists d. split.
    + rewrite <- Hd. apply string_forallb_ext. intros c. now rewrite Hf.
    + cbn in Hk. rewrite andb_true_r in Hk.
      apply at_end_true in Hk as [-> | ->]; [left|right]; trivial.
      now rewrite append_empty.
  - intros (d & Hd & Hs).
    assert (Hd' : string_forallb (re.atom_matches a) d = true).
    { rewrite <- Hd. now apply string_forallb_ext. }
    destruct Hs as [-> | ->].
    + exists d, EmptyString. rewrite append_empty. auto.
    + exists d, nl. auto.
Qed.

Lemma alpha_validate_eq (s : string) :
  Validator.validate alpha s
  = Ok (re.greedy letters (re.matches_at [re.At_End]) 0 s).
Proof. now rewrite Validator_validate_eq. Qed.

Lemma alphanumeric_validate_eq (s : string) :
  Validator.validate alphanumeric s
  = Ok match s with
       | String c s' =>
           re.atom_matches letters c &&
           re.greedy identifier_chars (re.matches_at [re.At_End]) 1 s'
       | EmptyString => false
       end.
Proof. rewrite Validator_validate_eq. now destruct s. Qed.

Lemma alpha_validate_true (s : string) :
  Validator.validate alpha s = Ok true <->
  exists d, all_letters d = true /\ (s = d \/ s = (d ++ nl)%string).
Proof.
  rewrite alpha_validate_eq. split.
  - intros H. injection H as H.
    now apply (starred_set_then_end _ _ _ _ letters_matches) in H.
  - intros H. f_equal.
    now apply (starred_set_then_end _ _ _ _ letters_matches).
Qed.

Lemma alphanumeric_validate_true (s : string) :
  Validator.validate alphanumeric s = Ok true <->
  exists c d,
    is_letter c = true /\ all_identifier_chars d = true /\
    (s = String c d \/ s = String c (d ++ nl)).
Proof.
  rewrite alphanumeric_validate_eq. split.
  - destruct s as [|c s]; [discriminate|]. intros H. injection H as H.
    change (re.atom_matches letters c &&
            re.greedy identifier_chars (re.matches_at [re.At_End]) 1 s
            = true) in H.
    apply andb_true_iff in H as [Hc H]. rewrite letters_matches in Hc.
    apply (starred_set_then_end _ _ _ _ identifier_chars_matches) in H
      as (d & Hd & Hs).
    exists c, d. repeat split; trivial.
    destruct Hs as [-> | ->]; auto.
  - intros (c & d & Hc & Hd & Hs). f_equal.
    rewrite <- letters_matches in Hc.
    destruct Hs as [-> | ->]; rewrite Hc; cbn [andb];
      apply (starred_set_then_end _ _ _ _ identifier_chars_matches);
      exists d; auto.
Qed.

Lemma all_letters_all_identifier_chars (d : string) :
  all_letters d = true -> all_identifier_chars d = true.
Proof.
  unfold all_letters, all_identifier_chars.
  induction d as [|c d IH]; cbn [string_forallb]; trivial.
  intros H. apply andb_true_iff in H as [Hc Hd].
  now rewrite (letter_is_identifier_char c Hc), (IH Hd).
Qed.

(** X4.  The alpha validator returns true exactly on the strings of letters
    and underscores, the empty one included, and on those followed by one
    final newline. *)
Theorem alpha_validate_spec (s : string) :
  Validator.validate alpha s = Ok true <->
  exists d, all_letters d = true /\ (s = d \/ s = (d ++ nl)%string).
Proof. exact (alpha_validate_true s). Qed.

(** X5.  The alphanumeric validator returns true exactly on the strings
    made of a letter or an underscore, then letters, underscores, digits and
    dollars, and on those followed by one final newline. *)
Theorem alphanumeric_validate_spec (s : string) :
  Validator.validate alphanumeric s = Ok true <->
  exists c d,
    is_letter c = true /\ all_identifier_chars d = true /\
    (s = String c d \/ s = String c (d ++ nl)).
Proof. exact (alphanumeric_validate_true s). Qed.

(** X6.  No string passes both the numeric and the alphanumeric
    validator. *)
Theorem numeric_and_alphanumeric_are_disjoint (s : string) :
  ~ (Validator.validate numeric s = Ok true /\
     Validator.validate alphanumeric s = Ok true).
Proof.
  rewrite numeric_validate_eq, alphanumeric_validate_eq. intros [Hn Ha].
  destruct s as [|c s]; [discriminate|].
  injection Ha as Ha. injection Hn as Hn.
  change (re.atom_matches letters c &&
          re.greedy identifier_chars (re.matches_at [re.At_End]) 1 s
          = true) in Ha.
  change ((re.atom_matches digits c &&
           re.greedy digits (re.matches_at [re.At_End]) 1 s)
          || (re.at_end (String c s) && true) = true) in Hn.
  apply andb_true_iff in Ha as [Hc _]. rewrite letters_matches in Hc.
  apply letter_not_digit_nor_newline in Hc as [Hd Hnl].
  rewrite digits_matches, Hd, andb_true_r in Hn. cbn [andb orb] in Hn.
  destruct s; [|discriminate].
  change (Ascii.eqb c re.newline = true) in Hn. congruence.
Qed.

(** X7.  Every string the alpha validator accepts is accepted by the
    alphanumeric validator too, but for the empty string and the string
    that is one newline. *)
Theorem alpha_is_within_alphanumeric (s : string) :
  Validator.validate alpha s = Ok true ->
  s <> EmptyString -> s <> nl ->
  Validator.validate alphanumeric s = Ok true.
Proof.
  intros H Hne Hnl. apply alpha_validate_true in H as (d & Hd & Hs).
  apply alphanumeric_validate_true.
  destruct d as [|c d].
  - destruct Hs as [-> | ->]; contradiction.
  - unfold all_letters in Hd. cbn [string_forallb] in Hd.
    apply andb_true_iff in Hd as [Hc Hd].
    exists c, d. repeat split; trivial.
    now apply all_letters_all_identifier_chars.
Qed.

(** * Further properties *)

(** ** All values are validated alike *)

(** On values that all have a text, [_validate_patterns] looks the
    validator up and compiles its pattern when there is a value to check,
    and answers with the conjunction. *)
Lemma _validate_patterns_texts_eq (self : object) (l : list value) :
  (forall e, In e l -> has_text e) ->
  _validate_patterns self l =
  match l with
  | [] => Ok true
  | _ :: _ =>
      v <- get_validator self ;;
      _ <- re.compile (Validator._pr v) ;;
      Ok (forallb (verdict self) l)
  end.
Proof.
  intros Hl. destruct l as [|a l]; [reflexivity|].
  destruct (get_validator self) as [v|e] eqn:Hv; cbn [bind].
  - destruct (re.compile (Validator._pr v)) as [r|e] eqn:Hr; cbn [bind].
    + now apply (_validate_patterns_texts self v r).
    + destruct (Hl a (or_introl eq_refl)) as [s Hs].
      unfold _validate_patterns. cbn [comprehension].
      unfold _validate_pattern at 1. rewrite Hv. cbn [bind].
      rewrite Hs. cbn [bind]. rewrite Validator_validate_eq, Hr.
      reflexivity.
  - unfold _validate_patterns. cbn [comprehension].
    unfold _validate_pattern at 1. rewrite Hv. reflexivity.
Qed.

Lemma validate_all_values (self : object) (args : list value)
  (kwargs : kwargs_t) :
  has_name "self" kwargs = false ->
  (forall e, In e (args ++ values kwargs) -> has_text e) ->
  validate self args kwargs = _validate_patterns self (args ++ values kwargs).
Proof.
  intros Hs Ht. rewrite (validate_bound _ _ _ Hs).
  rewrite (_validate_patterns_texts_eq self args)
    by (intros e He; apply Ht, in_or_app; auto).
  rewrite (_validate_patterns_texts_eq self (values kwargs))
    by (intros e He; apply Ht, in_or_app; auto).
  rewrite (_validate_patterns_texts_eq self _ Ht).
  destruct args as [|a args]; cbn [bind app]; [reflexivity|].
  destruct (get_validator self) as [v|]; cbn [bind]; trivial.
  destruct (re.compile (Validator._pr v)) as [r|]; cbn [bind]; trivial.
  change (a :: args ++ values kwargs) with ((a :: args) ++ values kwargs).
  rewrite forallb_app.
  destruct (forallb (verdict self) (a :: args)); cbn [andb]; trivial.
  now destruct (values kwargs).
Qed.

(** X1.  On values that all have a text, and with no keyword named [self],
    the result of [validate] depends only on the values it is given, not on
    their order nor on which are positional and which are keyword values:
    two such calls whose values are the same up to order give the same
    result, the exception of a pattern that does not compile included. *)
Theorem validate_depends_on_values_only
  (self : object) (args args' : list value) (kwargs kwargs' : kwargs_t) :
  has_name "self" kwargs = false ->
  has_name "self" kwargs' = false ->
  (forall v, In v (args ++ values kwargs) -> has_text v) ->
  Permutation (args ++ values kwargs) (args' ++ values kwargs') ->
  validate self args kwargs = validate self args' kwargs'.
Proof.
  intros Hs Hs' Ht P.
  assert (Ht' : forall v, In v (args' ++ values kwargs') -> has_text v).
  { intros v Hv. apply Ht. now apply (Permutation_in _ (Permutation_sym P)). }
  rewrite (validate_all_values _ _ _ Hs Ht).
  rewrite (validate_all_values _ _ _ Hs' Ht').
  rewrite (_validate_patterns_texts_eq _ _ Ht).
  rewrite (_validate_patterns_texts_eq _ _ Ht').
  destruct (args ++ values kwargs) as [|x l],
           (args' ++ values kwargs') as [|x' l'].
  - reflexivity.
  - now apply Permutation_nil in P.
  - now apply Permutation_sym, Permutation_nil in P.
  - destruct (get_validator self) as [v|]; cbn [bind]; trivial.
    destruct (re.compile (Validator._pr v)) as [r|]; cbn [bind]; trivial.
    f_equal. now apply forallb_Permutation.
Qed.

(** ** A pattern that does not compile *)

(** X2.  When the pattern of a [PatternValidator] does not compile, a call
    of [validate] with no keyword named [self] returns true when there is no
    value to check; when there is one, the first value is turned into text,
    which may raise, and then the compile error is raised. *)
Theorem validate_with_bad_pattern
  (p : string) (e : exception) (self : object) (args : list value)
  (kwargs : kwargs_t) :
  instantiate PatternValidator [p] = Ok self ->
  re.compile p = Raise e ->
  has_name "self" kwargs = false ->
  validate self args kwargs
  = match args ++ values kwargs with
    | [] => Ok true
    | v :: _ => _ <- str v ;; Raise e
    end.
Proof.
  intros Hself Hp Hs. apply instantiate_PatternValidator in Hself.
  assert (H : forall a l,
             _validate_patterns self (a :: l) = _ <- str a ;; Raise e).
  { intros a l. unfold _validate_patterns. cbn [comprehension].
    unfold _validate_pattern at 1. rewrite Hself. cbn [bind].
    destruct (str a) as [s|]; cbn [bind]; trivial.
    rewrite Validator_validate_eq.
    change (Validator._pr (Validator.__init__ p)) with p. now rewrite Hp. }
  rewrite (validate_bound _ _ _ Hs).
  destruct args as [|a args]; cbn [app].
  - change (_validate_patterns self []) with (@Ok bool true). cbn [bind].
    destruct (values kwargs) as [|v l]; [reflexivity|apply H].
  - rewrite H. now destruct (str a).
Qed.

(** ** The decorator over the base class *)

(** X3.  A function decorated with the base class [PatternValidator] as
    validator class cannot be called: every call raises [TypeError], whatever
    the arguments, the flag and the error kind, and the function is not
    invoked. *)
Theorem decorated_with_base_class_raises_TypeError
  {World : Type} (_return : bool) (_raise : ErrorKind) (func : function World)
  (args : list value) (kwargs : kwargs_t) (st : state World) :
  ValidateDecorator PatternValidator _return _raise func args kwargs st
  = (Raise TypeError, st).
Proof. apply wrap_args_raised, Validate_base_class. Qed.

(** ** Integer arguments under the numeric validator *)

Lemma all_digits_string_of_uint (d : Decimal.uint) :
  all_digits (NilEmpty.string_of_uint d) = true.
Proof. induction d; cbn; trivial. Qed.

Lemma all_digits_int_text_nonnegative (z : Z) :
  (0 <= z)%Z -> all_digits (int_text z) = true.
Proof.
  intros Hz. destruct z as [|q|q]; [reflexivity| |lia].
  unfold int_text. cbn [Z.to_int NilZero.string_of_int].
  unfold NilZero.string_of_uint.
  destruct (Pos.to_uint q); trivial; apply all_digits_string_of_uint.
Qed.

Lemma str_VInt (z : Z) (s : string) : str (VInt z) = Ok s -> s = int_text z.
Proof.
  cbn [str].
  destruct (Nat.ltb 640 (String.length (int_text z))
            && Nat.ltb 0 int_max_str_digits
            && Nat.ltb int_max_str_digits
                 (String.length (int_text z) - (if (z <? 0)%Z then 1 else 0)));
    [discriminate|]. now intros [= <-].
Qed.

Lemma numeric_int_text (z : Z) :
  Validator.validate numeric (int_text z) = Ok (0 <=? z)%Z.
Proof.
  destruct (Z.leb_spec 0 z) as [Hz|Hz].
  - apply numeric_validate_true. exists (int_text z). split; auto.
    now apply all_digits_int_text_nonnegative.
  - rewrite numeric_validate_eq. f_equal.
    destruct z as [|q|q]; [lia|lia|].
    unfold int_text. cbn [Z.to_int NilZero.string_of_int].
    destruct (NilZero.string_of_uint (Pos.to_uint q)); reflexivity.
Qed.

(** X8.  The numeric validator, given the text of an integer, accepts the
    integers that are not negative and rejects the negative ones, whose text
    starts with a minus sign. *)
Theorem numeric_validate_int (z : Z) (s : string) :
  str (VInt z) = Ok s ->
  Validator.validate numeric s = Ok (0 <=? z)%Z.
Proof. intros H. apply str_VInt in H as ->. apply numeric_int_text. Qed.

Lemma verdict_numeric_int (z : Z) :
  has_text (VInt z) ->
  verdict (NumericValidator___init__ (object___new__ NumericValidator))
    (VInt z) = (0 <=? z)%Z.
Proof.
  intros [s Hs]. unfold verdict, _validate_pattern. cbn [get_validator
    NumericValidator___init__ PatternValidator___init__ _validator bind].
  rewrite Hs. cbn [bind]. apply str_VInt in Hs as ->.
  change (Validator.__init__ NUMERIC_PATTERN) with numeric.
  now rewrite numeric_int_text.
Qed.

Lemma forallb_agree {A : Type} (f g : A -> bool) (l : list A) :
  (forall a, In a l -> f a = g a) -> forallb f l = forallb g l.
Proof.
  induction l as [|a l IH]; intros H; cbn [forallb]; trivial.
  rewrite (H a (or_introl eq_refl)), IH; trivial.
  intros x Hx. apply H. now right.
Qed.

(** X9.  A function under the numeric decorator, called with integers as
    positional and keyword arguments, no keyword named [cls] or [self] and
    every integer within the limit of digits: when none is negative it is
    invoked once and its result returned, or None when the flag is off; when
    one is negative the call raises [NumericValidatorException] and the
    function is not invoked. *)
Theorem numeric_decorator_on_integers
  {World : Type} (_return : bool) (func : function World) (zs : list Z)
  (kws : list (string * Z)) (st : state World) :
  has_name "cls" (int_kwargs kws) = false ->
  has_name "self" (int_kwargs kws) = false ->
  (forall z, In z (zs ++ map snd kws) -> has_text (VInt z)) ->
  NumericValidateDecorator _return func (int_args zs) (int_kwargs kws) st
  = if forallb (Z.leb 0) (zs ++ map snd kws) then
      (match fst (func (int_args zs) (int_kwargs kws) (world st)) with
       | Ok _res => Ok (if _return then _res else VNone)
       | Raise e => Raise e
       end,
       {| call_log := call_log st ++ [(int_args zs, int_kwargs kws)];
          world := snd (func (int_args zs) (int_kwargs kws) (world st)) |})
    else (Raise (Instance NumericValidatorException []), st).
Proof.
  intros Hc Hs Ht.
  set (self := NumericValidator___init__ (object___new__ NumericValidator)).
  assert (E : int_args zs ++ values (int_kwargs kws)
              = map VInt (zs ++ map snd kws)).
  { unfold int_args, int_kwargs, values. now rewrite map_app, !map_map. }
  assert (H : Validate NumericValidator (int_args zs) (int_kwargs kws)
              = Ok (forallb (Z.leb 0) (zs ++ map snd kws))).
  { rewrite (Validate_instantiate NumericValidator self _ _ eq_refl Hc).
    rewrite (validate_texts self numeric _ _ _ eq_refl
               compile_NUMERIC_PATTERN Hs).
    - f_equal. rewrite E, forallb_map. apply forallb_agree.
      intros z Hz. now apply verdict_numeric_int, Ht.
    - rewrite E. intros e He. apply in_map_iff in He as (z & <- & Hz).
      now apply Ht. }
  unfold NumericValidateDecorator.
  destruct (forallb (Z.leb 0) (zs ++ map snd kws)).
  - now apply wrap_args_accepted.
  - now apply wrap_args_rejected.
Qed.

(** ** Patterns with no end anchor *)

Lemma greedy_of_continuation (a : re.atom) (k : nat -> string -> bool)
  (pos : nat) (s : string) :
  k pos s = true -> re.greedy a k pos s = true.
Proof.
  intros H. destruct s; cbn [re.greedy]; trivial.
  rewrite H. apply orb_true_r.
Qed.

Lemma greedy_extends (a : re.atom) (k : nat -> string -> bool) (t : string) :
  (forall pos s, k pos s = true -> k pos (s ++ t)%string = true) ->
  forall s pos,
    re.greedy a k pos s = true -> re.greedy a k pos (s ++ t)%string = true.
Proof.
  intros Hk. induction s as [|c s IH]; intros pos H.
  - apply greedy_of_continuation. exact (Hk pos EmptyString H).
  - cbn [re.greedy String.append] in *.
    apply orb_true_iff in H as [H|H].
    + apply andb_true_iff in H as [Hc H]. now rewrite Hc, (IH _ H).
    + change (String c (s ++ t)%string) with (String c s ++ t)%string.
      rewrite (Hk _ _ H). apply orb_true_r.
Qed.

Lemma matches_at_extends (r : list re.op) (t : string) :
  mentions_end r = false ->
  forall pos s,
    re.matches_at r pos s = true -> re.matches_at r pos (s ++ t)%string = true.
Proof.
  induction r as [|o r IH]; intros Hr pos s H; [reflexivity|].
  unfold mentions_end in Hr. cbn [existsb] in Hr.
  apply orb_false_iff in Hr as [Ho Hr]. specialize (IH Hr).
  destruct o as [| |q a]; [|discriminate|].
  - cbn [re.matches_at] in *. apply andb_true_iff in H as [Hp H].
    now rewrite Hp, (IH _ _ H).
  - destruct q.
    + destruct s as [|c s]; [discriminate|].
      cbn [re.matches_at String.append] in *.
      apply andb_true_iff in H as [Hc H]. now rewrite Hc, (IH _ _ H).
    + cbn [re.matches_at] in *. now apply greedy_extends.
    + destruct s as [|c s]; [discriminate|].
      cbn [re.matches_at String.append] in *.
      apply andb_true_iff in H as [Hc H]. rewrite Hc.
      now apply greedy_extends.
    + destruct s as [|c s].
      * cbn [re.matches_at] in H. apply (IH _ _) in H.
        cbn [String.append] in *. destruct t as [|c t]; trivial.
        cbn [re.matches_at]. rewrite H. apply orb_true_r.
      * cbn [re.matches_at String.append] in *.
        apply orb_true_iff in H as [H|H].
        -- apply andb_true_iff in H as [Hc H]. now rewrite Hc, (IH _ _ H).
        -- apply (IH _ _) in H. cbn [String.append] in H. rewrite H.
           apply orb_true_r.
Qed.

(** X10.  [validate] matches at the start of the string only.  Under a
    pattern written with literal characters, escaped punctuation, [.], [^],
    character sets and the repeats [*], [+], [?] only, so with no [$], a
    string that is accepted stays accepted whatever is appended to it. *)
Theorem validate_without_end_anchor_accepts_extensions
  (p : string) (code : list re.op) (s t : string) :
  re.compile p = Ok (re.Code code) ->
  mentions_end code = false ->
  Validator.validate (Validator.__init__ p) s = Ok true ->
  Validator.validate (Validator.__init__ p) (s ++ t)%string = Ok true.
Proof.
  intros Hp Hr. rewrite !Validator_validate_eq.
  change (Validator._pr (Validator.__init__ p)) with p. rewrite Hp.
  cbn [bind re.matches]. intros H. injection H as H. f_equal.
  now apply matches_at_extends.
Qed.

(** ** What a decorated call can do *)

(** X11.  Whatever the validator class, the flag, the error kind and the
    arguments, a call of the decorated function has two outcomes only: the
    function is invoked once, on the same arguments, and decides the
    outcome; or the call raises and the function is not invoked, nothing
    logged and the world as it was.  It never returns without invoking the
    function and never invokes it twice. *)
Theorem decorated_call_raises_or_invokes_once
  {World : Type} (type_class : class) (_return : bool) (_raise : ErrorKind)
  (func : function World) (args : list value) (kwargs : kwargs_t)
  (st : state World) :
  ValidateDecorator type_class _return _raise func args kwargs st
  = (match fst (func args kwargs (world st)) with
     | Ok _res => Ok (if _return then _res else VNone)
     | Raise e => Raise e
     end,
     {| call_log := call_log st ++ [(args, kwargs)];
        world := snd (func args kwargs (world st)) |})
  \/
  exists e : exception,
    ValidateDecorator type_class _return _raise func args kwargs st
    = (Raise e, st).
Proof.
  destruct (Validate type_class args kwargs) as [[|]|e] eqn:H.
  - left. now apply wrap_args_accepted.
  - right. eexists. now apply wrap_args_rejected.
  - right. exists e. now apply wrap_args_raised.
Qed.

(** ** Keywords named cls or self *)

Lemma Validate_unbound_keyword (type_class : class) (args : list value)
  (kwargs : kwargs_t) :
  has_name "cls" kwargs = true \/ has_name "self" kwargs = true ->
  Validate type_class args kwargs = Raise TypeError.
Proof.
  intros H. unfold Validate, bind_keywords.
  destruct (has_name "cls" kwargs); [reflexivity|].
  destruct H as [H|H]; [discriminate|]. cbn [bind].
  destruct type_class; cbn [__init__ object___new__ __class__ bind];
    trivial; unfold validate, bind_keywords; now rewrite H.
Qed.

(** X12.  A decorated function cannot be called with a keyword named [cls]
    or [self]: whatever the validator class and the other arguments, the
    call raises [TypeError] and the function is not invoked. *)
Theorem decorated_call_with_keyword_cls_or_self
  {World : Type} (type_class : class) (_return : bool) (_raise : ErrorKind)
  (func : function World) (args : list value) (kwargs : kwargs_t)
  (st : state World) :
  has_name "cls" kwargs = true \/ has_name "self" kwargs = true ->
  ValidateDecorator type_class _return _raise func args kwargs st
  = (Raise TypeError, st).
Proof.
  intros H. now apply wrap_args_raised, Validate_unbound_keyword.
Qed.

End Properties.

(** * Examples *)

(** The theorems at concrete calls, on the example interpreter. *)
#[local] Existing Instance example_interpreter.

(** ** The validators *)



(** The pattern is compiled when [validate] runs, not when the validator is
    built: a pattern that does not compile makes [validate] raise.  So does
    a keyword named [self], under a pattern that compiles. *)
Lemma validate_raises_on_unterminated_set :
  let v := Validator.__init__ "[" in
  Validator.validate v "a" = Raise re_error /\
  ~ (exists b : bool, Validator.validate v "a" = Ok b) /\
  validate (PatternValidator___init__ (object___new__ PatternValidator) "[")
    [VStr "a"] [] = Raise re_error /\
  validate alpha_validator (string_args []) (string_kwargs [("self", "a")])
  = Raise TypeError.
Proof.
  cbv zeta. repeat split.
  intros [b H]. discriminate H.
Qed.

Lemma validate_returns_a_boolean_witness :
  re.compile NUMERIC_PATTERN
  = Ok (re.Code [re.Repeat re.ZeroOrMore digits; re.At_End]) /\
  (forall s : string,
      exists b : bool,
        Validator.validate (Validator.__init__ NUMERIC_PATTERN) s = Ok b) /\
  (forall (self : object) (args : list string)
          (kwargs : list (string * string)),
      instantiate PatternValidator [NUMERIC_PATTERN] = Ok self ->
      has_name "self" (string_kwargs kwargs) = false ->
      exists b : bool,
        validate self (string_args args) (string_kwargs kwargs) = Ok b).
Proof.
  split; [reflexivity|].
  exact (validate_returns_a_boolean NUMERIC_PATTERN _ compile_NUMERIC_PATTERN).
Defined.





(** ** The decorator *)

Lemma decorated_call_raises_on_invalid_argument_witness :
  ValidateDecorator NumericValidator true DefaultException sm
    [VStr "ab"; VStr "cd"] [] initial
  = (Raise (Instance DefaultException []), initial).
Proof.
  apply (decorated_call_raises_on_invalid_argument NumericValidator true
           DefaultException sm [VStr "ab"; VStr "cd"] [] initial
           numeric_validator (VStr "cd")).
  - reflexivity.
  - reflexivity.
  - reflexivity.
  - intros v [<-|[<-|[]]]; eexists; reflexivity.
  - simpl. auto.
  - reflexivity.
Defined.

(** An argument fails validation and a keyword is named [cls]: the call
    raises [TypeError], not the error kind.  An argument fails validation
    and the [__str__] of another raises: the call raises that exception. *)
Lemma decorated_call_with_keyword_cls_raises_TypeError :
  _validate_pattern numeric_validator (VStr "ab") = Ok false /\
  ValidateDecorator NumericValidator true DefaultException sm
    [VStr "ab"] [("cls", VStr "1")] initial
  = (Raise TypeError, initial) /\
  ValidateDecorator NumericValidator true DefaultException sm
    [VStr "ab"] [("cls", VStr "1")] initial
  <> (Raise (Instance DefaultException []), initial) /\
  ValidateDecorator NumericValidator true DefaultException sm
    [VObject (inr ValueError); VStr "ab"] [] initial
  = (Raise ValueError, initial).
Proof. repeat split. discriminate. Qed.



(** ** The patterns *)

(** A string with a character that is not a digit, which the numeric
    validator accepts: [$] also holds before a newline that ends the
    string. *)
Lemma numeric_accepts_final_newline :
  let s := ("1" ++ nl)%string in
  all_digits s = false /\
  Validator.validate numeric s = Ok true /\
  ~ (forall s' : string,
        all_digits s' = false -> Validator.validate numeric s' = Ok false).
Proof.
  cbv zeta. split; [reflexivity|]. split; [reflexivity|].
  intros H. specialize (H ("1" ++ nl)%string eq_refl). discriminate H.
Qed.

Lemma alpha_is_within_alphanumeric_witness :
  Validator.validate alphanumeric "__okei" = Ok true.
Proof.
  apply (alpha_is_within_alphanumeric "__okei"); [reflexivity| |];
    discriminate.
Defined.

(** ** Further properties *)

Lemma validate_depends_on_values_only_witness :
  validate alpha_validator [VStr "ab"; VStr "cd"] [("option", VStr "9")]
  = validate alpha_validator []
      [("x", VStr "9"); ("y", VStr "ab"); ("z", VStr "cd")].
Proof.
  apply (validate_depends_on_values_only _ [VStr "ab"; VStr "cd"] []
           [("option", VStr "9")]
           [("x", VStr "9"); ("y", VStr "ab"); ("z", VStr "cd")]).
  - reflexivity.
  - reflexivity.
  - intros v [<-|[<-|[<-|[]]]]; eexists; reflexivity.
  - apply Permutation_sym.
    exact (Permutation_cons_append [VStr "ab"; VStr "cd"] (VStr "9")).
Defined.

Lemma validate_with_bad_pattern_witness :
  let self := PatternValidator___init__ (object___new__ PatternValidator)
                "a**" in
  validate self [] [("k", VStr "a")] = Raise re_error /\
  validate self [] [] = Ok true.
Proof.
  cbv zeta. split.
  - exact (validate_with_bad_pattern "a**" re_error _ [] [("k", VStr "a")]
             eq_refl eq_refl eq_refl).
  - exact (validate_with_bad_pattern "a**" re_error _ [] [] eq_refl eq_refl
             eq_refl).
Defined.

Lemma numeric_validate_int_witness :
  Validator.validate numeric "12" = Ok true /\
  Validator.validate numeric "-12" = Ok false.
Proof.
  split.
  - exact (numeric_validate_int 12 "12" eq_refl).
  - exact (numeric_validate_int (-12) "-12" eq_refl).
Defined.

Lemma numeric_decorator_on_integers_witness :
  NumericValidateDecorator true sm (int_args [1; 2]%Z) (int_kwargs []) initial
  = (Ok (VInt 3), {| call_log := [([VInt 1; VInt 2], [])]; world := 1 |}) /\
  NumericValidateDecorator true sm (int_args [1; -2]%Z) (int_kwargs []) initial
  = (Raise (Instance NumericValidatorException []), initial).
Proof.
  split.
  - apply (numeric_decorator_on_integers true sm [1; 2]%Z [] initial
             eq_refl eq_refl).
    intros z [<-|[<-|[]]]; eexists; reflexivity.
  - apply (numeric_decorator_on_integers true sm [1; -2]%Z [] initial
             eq_refl eq_refl).
    intros z [<-|[<-|[]]]; eexists; reflexivity.
Defined.

Lemma validate_without_end_anchor_accepts_extensions_witness :
  Validator.validate (Validator.__init__ "[0-5]*") "016" = Ok true.
Proof.
  exact (validate_without_end_anchor_accepts_extensions "[0-5]*" _ "01" "6"
           eq_refl eq_refl eq_refl).
Defined.

Lemma decorated_call_with_keyword_cls_or_self_witness :
  ValidateDecorator AlphaValidator true AlphaValidatorException sm
    [VStr "ab"] [("self", VStr "cd")] initial
  = (Raise TypeError, initial).
Proof.
  apply (decorated_call_with_keyword_cls_or_self AlphaValidator true
           AlphaValidatorException sm [VStr "ab"] [("self", VStr "cd")]
           initial).
  right. reflexivity.
Defined.
